(** * Incident question handler: a shallow embedding of [lambda_function.py]

    The handler answers a free-text question about incident records: it
    reads a limit out of the question, scans a DynamoDB table, renders the
    returned items as JSON inside a prompt and forwards the prompt to a
    hosted model.

    Python values are embedded as the untyped tree [pyval]; every Python
    function becomes a function into [result], whose [Raise] carries the
    [str(e)] of the exception, and the functions that talk to a client run
    in the monad [M], which also records the calls made.  A [str] is a
    [string] whose characters are the code points below 256. *)

From stdpp Require Import base option list strings gmap fin_maps.
From Stdlib Require Import ZArith Ascii String Lia DecimalString DecimalZ.

Local Open Scope Z_scope.

(** ** Python values *)

(** A float is carried as the text [float.__repr__] gives for it (the text
    [json.dumps] emits) and whether it is non-zero (its truth value). *)
Record pyfloat := PyFloat { float_repr : string; float_nonzero : bool }.

#[warnings="-register-all"]
Inductive pyval :=
| PNone
| PBool (b : bool)
| PInt (z : Z)
| PFloat (f : pyfloat)
| PStr (s : string)
| PBytes (b : list ascii)
| PList (l : list pyval)
| PDict (d : list (string * pyval)).

(** Outcome of running Python code: a value, or a raised exception, of
    which the program only ever looks at [str(e)]. *)
Inductive result (A : Type) :=
| Ok (a : A)
| Raise (e : string).
Arguments Ok {A} a.
Arguments Raise {A} e.

Definition rbind {A B} (m : result A) (k : A -> result B) : result B :=
  match m with
  | Ok a => k a
  | Raise e => Raise e
  end.

Declare Scope result_scope.
Delimit Scope result_scope with result.
Notation "x <- m ;; k" := (rbind m (fun x => k))
  (at level 90, m at next level, right associativity) : result_scope.

(** ** Characters and strings *)

Definition chars (s : string) : list ascii := list_ascii_of_string s.
Definition str (l : list ascii) : string := string_of_list_ascii l.

Definition code (c : ascii) : N := N_of_ascii c.

(** [str.lower] on one code point below 256: the ASCII capitals and the
    Latin-1 capitals other than the multiplication sign move up by 32. *)
Definition unicode_tolower (c : ascii) : ascii :=
  let n := code c in
  if ((65 <=? n) && (n <=? 90))%N then ascii_of_N (n + 32)
  else if ((192 <=? n) && (n <=? 222) && negb (n =? 215))%N then ascii_of_N (n + 32)
  else c.

(** [\d] on a [str] pattern: the decimal digits; below 256 these are 0-9. *)
Definition is_decimal (c : ascii) : bool :=
  ((48 <=? code c) && (code c <=? 57))%N.

Definition digit_value (c : ascii) : Z := Z.of_N (code c) - 48.

(** [int(s)] on a non-empty run of decimal digits: the number they write
    in base ten, of any size (the interpreter's optional guard on the
    length of the text is not part of the model). *)
Definition int_of_digits (ds : list ascii) : Z :=
  fold_left (fun acc d => 10 * acc + digit_value d) ds 0.

(** ** The regular expression of the limit extractor *)

Inductive re_op :=
| LITERAL (c : ascii)   (* one character *)
| DIGITS_GROUP.         (* [(\d+)]: greedy, one or more, capturing *)

(** [re.IGNORECASE] compares the lower-cased subject character with the
    lower-cased pattern character. *)
Definition char_matches (ignorecase : bool) (c x : ascii) : bool :=
  if ignorecase
  then bool_decide (unicode_tolower x = unicode_tolower c)
  else bool_decide (x = c).

(** Backtracking match of a pattern at the start of [s]; the result is the
    text of the capturing group. *)
Fixpoint sre_match (ignorecase : bool) (p : list re_op) (s : list ascii)
  {struct p} : option (list ascii) :=
  match p with
  | [] => Some []
  | LITERAL c :: p' =>
      match s with
      | x :: s' =>
          if char_matches ignorecase c x then sre_match ignorecase p' s' else None
      | [] => None
      end
  | DIGITS_GROUP :: p' =>
      (fix repeat (s : list ascii) : option (list ascii) :=
         match s with
         | d :: s' =>
             if is_decimal d then
               match repeat s' with
               | Some g => Some (d :: g)
               | None =>
                   match sre_match ignorecase p' s' with
                   | Some _ => Some [d]
                   | None => None
                   end
               end
             else None
         | [] => None
         end) s
  end.

(** [re.search]: the match at the leftmost start position that has one. *)
Fixpoint re_search (ignorecase : bool) (p : list re_op) (s : list ascii)
  : option (list ascii) :=
  match sre_match ignorecase p s with
  | Some g => Some g
  | None =>
      match s with
      | [] => None
      | _ :: s' => re_search ignorecase p s'
      end
  end.

(** [r"last (\d+) incidents"] *)
Definition limit_pattern : list re_op :=
  map LITERAL (chars "last ") ++ [DIGITS_GROUP] ++ map LITERAL (chars " incidents").

Definition type_name (v : pyval) : string :=
  match v with
  | PNone => "NoneType"
  | PBool _ => "bool"
  | PInt _ => "int"
  | PFloat _ => "float"
  | PStr _ => "str"
  | PBytes _ => "bytes"
  | PList _ => "list"
  | PDict _ => "dict"
  end.

(** [determine_incident_limit], lines 78-83.  [re.search] only accepts a
    [str] for a [str] pattern. *)
Definition determine_incident_limit (user_question : pyval) : result Z :=
  match user_question with
  | PStr q =>
      match re_search true limit_pattern (chars q) with
      | Some group1 => Ok (int_of_digits group1)
      | None => Ok 5
      end
  | PBytes _ => Raise "cannot use a string pattern on a bytes-like object"
  | v => Raise ("expected string or bytes-like object, got '" +:+ type_name v +:+ "'")
  end.

(** ** Operations of the Python object model *)

(** Lookup in a [dict], kept as the list of its entries in insertion order. *)
Fixpoint dict_lookup (d : list (string * pyval)) (key : string) : option pyval :=
  match d with
  | [] => None
  | (k, v) :: d' => if bool_decide (k = key) then Some v else dict_lookup d' key
  end.

(** [obj.get(key, default)]: only a [dict] has the method. *)
Definition py_get (obj : pyval) (key : string) (default : pyval) : result pyval :=
  match obj with
  | PDict d => Ok (from_option id default (dict_lookup d key))
  | v => Raise ("'" +:+ type_name v +:+ "' object has no attribute 'get'")
  end.

(** [obj[key]] for a [str] key (written for keys whose [repr] needs no
    escape, as ["body"]). *)
Definition py_getitem_key (obj : pyval) (key : string) : result pyval :=
  match obj with
  | PDict d =>
      match dict_lookup d key with
      | Some v => Ok v
      | None => Raise ("'" +:+ key +:+ "'")
      end
  | PList _ => Raise "list indices must be integers or slices, not str"
  | PStr _ => Raise "string indices must be integers, not 'str'"
  | PBytes _ => Raise "byte indices must be integers or slices, not str"
  | v => Raise ("'" +:+ type_name v +:+ "' object is not subscriptable")
  end.

Definition seq_index {A} (l : list A) (i : Z) : option A :=
  let j := if i <? 0 then i + Z.of_nat (List.length l) else i in
  if j <? 0 then None else l !! Z.to_nat j.

Definition decimal (z : Z) : string := NilZero.string_of_int (Z.to_int z).

(** [obj[i]] for an [int] index; the dicts here have [str] keys only. *)
Definition py_getitem_index (obj : pyval) (i : Z) : result pyval :=
  match obj with
  | PList l =>
      match seq_index l i with
      | Some v => Ok v
      | None => Raise "list index out of range"
      end
  | PStr s =>
      match seq_index (chars s) i with
      | Some c => Ok (PStr (String c EmptyString))
      | None => Raise "string index out of range"
      end
  | PBytes b =>
      match seq_index b i with
      | Some c => Ok (PInt (Z.of_N (code c)))
      | None => Raise "index out of range"
      end
  | PDict _ => Raise (decimal i)
  | v => Raise ("'" +:+ type_name v +:+ "' object is not subscriptable")
  end.

(** [stream.read()]: a streaming body is represented by the bytes it holds. *)
Definition py_read (stream : pyval) : result pyval :=
  match stream with
  | PBytes b => Ok (PBytes b)
  | v => Raise ("'" +:+ type_name v +:+ "' object has no attribute 'read'")
  end.

(** Truth value, as tested by [not obj]. *)
Definition truthy (v : pyval) : bool :=
  match v with
  | PNone => false
  | PBool b => b
  | PInt z => negb (z =? 0)
  | PFloat f => float_nonzero f
  | PStr s => negb (bool_decide (s = EmptyString))
  | PBytes b => negb (bool_decide (b = []))
  | PList l => match l with [] => false | _ => true end
  | PDict d => match d with [] => false | _ => true end
  end.

(** [isinstance(obj, dict) and key in obj] *)
Definition is_dict_with (obj : pyval) (key : string) : bool :=
  match obj with
  | PDict d => bool_decide (is_Some (dict_lookup d key))
  | _ => false
  end.

(** The items a [for] loop draws from an object. *)
Definition py_iter (obj : pyval) : result (list pyval) :=
  match obj with
  | PList l => Ok l
  | PDict d => Ok (map (fun kv => PStr (fst kv)) d)
  | PStr s => Ok (map (fun c => PStr (String c EmptyString)) (chars s))
  | PBytes b => Ok (map (fun c => PInt (Z.of_N (code c))) b)
  | v => Raise ("'" +:+ type_name v +:+ "' object is not iterable")
  end.

(** ** [json.dumps] *)

Definition hex_digit (n : N) : ascii :=
  default "0"%char (chars "0123456789abcdef" !! N.to_nat n).

Definition LF : string := String (ascii_of_N 10) EmptyString.
Definition DQUOTE : string := String (ascii_of_N 34) EmptyString.
Definition BACKSLASH : string := String (ascii_of_N 92) EmptyString.

(** One character of a string under [ensure_ascii]: the short escapes,
    [\u00xx] for everything else outside the printable ASCII range. *)
Definition escape_char (c : ascii) : string :=
  let n := code c in
  if (n =? 34)%N then BACKSLASH +:+ DQUOTE
  else if (n =? 92)%N then BACKSLASH +:+ BACKSLASH
  else if (n =? 10)%N then "\n"
  else if (n =? 13)%N then "\r"
  else if (n =? 9)%N then "\t"
  else if (n =? 8)%N then "\b"
  else if (n =? 12)%N then "\f"
  else if ((n <? 32) || (126 <? n))%N
       then "\u00" +:+ String (hex_digit (n / 16)) (String (hex_digit (n mod 16)) EmptyString)
  else String c EmptyString.

Definition encode_basestring_ascii (s : string) : string :=
  DQUOTE +:+ String.concat EmptyString (map escape_char (chars s)) +:+ DQUOTE.

(** Spaces that start a line at nesting depth [level]. *)
Definition newline_indent (indent level : nat) : string :=
  LF +:+ str (replicate (indent * level) " "%char).

Definition opening (indent : option nat) (level : nat) : string :=
  match indent with
  | Some n => newline_indent n (S level)
  | None => EmptyString
  end.

Definition item_separator (indent : option nat) (level : nat) : string :=
  match indent with
  | Some n => "," +:+ newline_indent n (S level)
  | None => ", "
  end.

Definition closing (indent : option nat) (level : nat) : string :=
  match indent with
  | Some n => newline_indent n level
  | None => EmptyString
  end.

Definition key_separator : string := ": ".

(** The encoder of [json.dumps(obj, indent=indent)] with the other
    arguments at their defaults; [bytes] is not serializable. *)
Fixpoint iterencode (indent : option nat) (level : nat) (o : pyval)
  : result string :=
  match o with
  | PNone => Ok "null"
  | PBool true => Ok "true"
  | PBool false => Ok "false"
  | PInt z => Ok (decimal z)
  | PFloat f => Ok (float_repr f)
  | PStr s => Ok (encode_basestring_ascii s)
  | PBytes _ => Raise "Object of type bytes is not JSON serializable"
  | PList [] => Ok "[]"
  | PList l =>
      (chunks <-
         (fix encode_items (l : list pyval) : result (list string) :=
            match l with
            | [] => Ok []
            | value :: rest =>
                chunk <- iterencode indent (S level) value ;;
                chunks <- encode_items rest ;;
                Ok (chunk :: chunks)
            end) l ;;
       Ok ("[" +:+ opening indent level
               +:+ String.concat (item_separator indent level) chunks
               +:+ closing indent level +:+ "]"))%result
  | PDict [] => Ok "{}"
  | PDict d =>
      (chunks <-
         (fix encode_entries (d : list (string * pyval)) : result (list string) :=
            match d with
            | [] => Ok []
            | (key, value) :: rest =>
                chunk <- iterencode indent (S level) value ;;
                chunks <- encode_entries rest ;;
                Ok ((encode_basestring_ascii key +:+ key_separator +:+ chunk) :: chunks)
            end) d ;;
       Ok ("{" +:+ opening indent level
               +:+ String.concat (item_separator indent level) chunks
               +:+ closing indent level +:+ "}"))%result
  end.

Definition json_dumps (indent : option nat) (obj : pyval) : result string :=
  iterencode indent 0 obj.

(** What [json.dumps] accepts: everything but [bytes]. *)
Fixpoint serializable (o : pyval) : bool :=
  match o with
  | PBytes _ => false
  | PList l => forallb serializable l
  | PDict d => forallb (fun kv => serializable (snd kv)) d
  | _ => true
  end.

(** ** Calls to the two clients *)

Inductive call :=
| ScanCall (table : string) (limit : Z)
| InvokeModelCall (modelId body : string).

(** A computation that may call a client: it extends the log of the calls
    made so far and returns or raises. *)
Definition M (A : Type) : Type := list call -> result A * list call.

Definition mret {A} (a : A) : M A := fun log => (Ok a, log).

Definition mbind {A B} (m : M A) (k : A -> M B) : M B :=
  fun log =>
    match m log with
    | (Ok a, log') => k a log'
    | (Raise e, log') => (Raise e, log')
    end.

Definition lift {A} (r : result A) : M A := fun log => (r, log).

(** [try: m except Exception as e: handler(str(e))] *)
Definition try_except {A} (m : M A) (handler : string -> M A) : M A :=
  fun log =>
    match m log with
    | (Ok a, log') => (Ok a, log')
    | (Raise e, log') => handler e log'
    end.

Declare Scope M_scope.
Delimit Scope M_scope with M.
Notation "x <- m ;; k" := (mbind m (fun x => k))
  (at level 90, m at next level, right associativity) : M_scope.

(** The response of the handler: [{"statusCode": ..., "body": ...}]. *)
Record response := Response { statusCode : Z; body : string }.

(** ** DynamoDB items, as the scan returns them *)

(** An attribute value is a one-entry dict from its type tag to its
    payload. *)
#[warnings="-register-all"]
Inductive AttributeValue :=
| AV_S (s : string)
| AV_N (s : string)
| AV_B (b : list ascii)
| AV_SS (l : list string)
| AV_NS (l : list string)
| AV_BS (l : list (list ascii))
| AV_M (m : list (string * AttributeValue))
| AV_L (l : list AttributeValue)
| AV_NULL (b : bool)
| AV_BOOL (b : bool).

Fixpoint attr_to_py (a : AttributeValue) : pyval :=
  match a with
  | AV_S s => PDict [("S", PStr s)]
  | AV_N s => PDict [("N", PStr s)]
  | AV_B b => PDict [("B", PBytes b)]
  | AV_SS l => PDict [("SS", PList (map PStr l))]
  | AV_NS l => PDict [("NS", PList (map PStr l))]
  | AV_BS l => PDict [("BS", PList (map PBytes l))]
  | AV_M m =>
      PDict [("M", PDict ((fix entries (m : list (string * AttributeValue)) :=
                             match m with
                             | [] => []
                             | (k, a) :: m' => (k, attr_to_py a) :: entries m'
                             end) m))]
  | AV_L l => PDict [("L", PList (map attr_to_py l))]
  | AV_NULL b => PDict [("NULL", PBool b)]
  | AV_BOOL b => PDict [("BOOL", PBool b)]
  end.

Definition item_to_py (item : gmap string AttributeValue) : pyval :=
  PDict (map (fun kv => (fst kv, attr_to_py (snd kv))) (map_to_list item)).

(** The string an attribute holds, when it is string-typed. *)
Definition string_of_attr (a : AttributeValue) : option string :=
  match a with
  | AV_S s => Some s
  | _ => None
  end.

(** ** The program *)

(** [incident.get(field, {}).get("S", "N/A")] *)
Definition get_S (incident : pyval) (field : string) : result pyval :=
  (wrapper <- py_get incident field (PDict []) ;;
   py_get wrapper "S" (PStr "N/A"))%result.

(** The body of the loop of [format_incidents_for_prompt], lines 46-55. *)
Definition format_incident (incident : pyval) : result pyval :=
  (v_id <- get_S incident "id" ;;
   v_title <- get_S incident "title" ;;
   v_status <- get_S incident "status" ;;
   v_priority <- get_S incident "priority" ;;
   v_urgency <- get_S incident "urgency" ;;
   v_category <- get_S incident "category" ;;
   v_service <- get_S incident "affectedService" ;;
   v_rca <- get_S incident "rootCauseAnalysis" ;;
   Ok (PDict [("Incident ID", v_id);
              ("Title", v_title);
              ("Status", v_status);
              ("Priority", v_priority);
              ("Urgency", v_urgency);
              ("Category", v_category);
              ("Affected Service", v_service);
              ("Root Cause", v_rca)]))%result.

Fixpoint format_each (incidents : list pyval) : result (list pyval) :=
  match incidents with
  | [] => Ok []
  | incident :: rest =>
      (row <- format_incident incident ;;
       rows <- format_each rest ;;
       Ok (row :: rows))%result
  end.

(** The list the loop builds, before it is serialized. *)
Definition formatted_incidents (incidents : pyval) : result pyval :=
  (items <- py_iter incidents ;;
   rows <- format_each items ;;
   Ok (PList rows))%result.

(** [format_incidents_for_prompt], lines 42-56. *)
Definition format_incidents_for_prompt (incidents : pyval) : result string :=
  (formatted <- formatted_incidents incidents ;;
   json_dumps (Some 2%nat) formatted)%result.

(** [generate_user_query_prompt], lines 85-93; the question is a [str]. *)
Definition generate_user_query_prompt (incidents : pyval) (user_question : string)
  : result string :=
  (block <- format_incidents_for_prompt incidents ;;
   Ok ("You are an AI assistant helping with incident management. Below are the most recent incidents:"
       +:+ LF +:+ LF +:+ block +:+ LF +:+ LF
       +:+ "User Question: " +:+ user_question +:+ LF +:+ LF
       +:+ "Please provide a clear, professional response."))%result.

Definition TABLE_NAME : string := "dev-incidents".
Definition MODEL_ID : string := "anthropic.claude-3-5-sonnet-20240620-v1:0".

(** The payload of [invoke_bedrock], lines 61-68. *)
Definition bedrock_payload (prompt : string) : pyval :=
  PDict [("anthropic_version", PStr "bedrock-2023-05-31");
         ("messages",
           PList [PDict [("role", PStr "user");
                         ("content", PList [PDict [("type", PStr "text");
                                                   ("text", PStr prompt)]])]]);
         ("max_tokens", PInt 500);
         ("temperature", PFloat (PyFloat "0.7" true))].

(** The text of a [str] value. *)
Definition str_value (v : pyval) : string :=
  match v with
  | PStr s => s
  | _ => EmptyString
  end.

(** The library and the two clients, as the module sees them:
    [json.loads], [dynamodb_client.scan(TableName=..., Limit=...)] and
    [bedrock_client.invoke_model(modelId=..., body=...)], whose response
    holds under ["body"] the bytes its stream yields. *)
Record runtime := Runtime {
  json_loads : pyval -> result pyval;
  dynamodb_scan : string -> Z -> result pyval;
  bedrock_invoke_model : string -> string -> result pyval
}.

Section Program.

Variable rt : runtime.

Definition call_scan (table : string) (limit : Z) : M pyval :=
  fun log => (dynamodb_scan rt table limit, log ++ [ScanCall table limit]).

Definition call_invoke_model (modelId payload : string) : M pyval :=
  fun log =>
    (bedrock_invoke_model rt modelId payload, log ++ [InvokeModelCall modelId payload]).

(** [get_all_incidents], lines 31-40. *)
Definition get_all_incidents (table_name : string) (limit : Z) : M pyval :=
  try_except
    (response <- call_scan table_name limit ;;
     lift (py_get response "Items" (PList [])))%M
    (fun e => mret (PDict [("error", PStr ("Error fetching incidents: " +:+ e))])).

(** [invoke_bedrock], lines 58-76. *)
Definition invoke_bedrock (prompt : string) : M pyval :=
  try_except
    (payload <- lift (json_dumps None (bedrock_payload prompt)) ;;
     response <- call_invoke_model MODEL_ID payload ;;
     stream <- lift (py_getitem_key response "body") ;;
     raw <- lift (py_read stream) ;;
     response_body <- lift (json_loads rt raw) ;;
     content <- lift (py_get response_body "content" (PList [PDict []])) ;;
     first <- lift (py_getitem_index content 0) ;;
     lift (py_get first "text" (PStr EmptyString)))%M
    (fun e => mret (PDict [("error", PStr ("Error invoking Bedrock: " +:+ e))])).

(** The [try] block of [lambda_handler], lines 98-126.  Past line 105 the
    question is a [str]: [re.search] raised on anything else. *)
Definition lambda_handler_try (event : pyval) : M response :=
  (raw <- lift (py_getitem_key event "body") ;;
   parsed <- lift (json_loads rt raw) ;;
   user_question <- lift (py_get parsed "user_question" (PStr EmptyString)) ;;
   if negb (truthy user_question) then
     b <- lift (json_dumps None (PDict [("error", PStr "Please provide a user question")])) ;;
     mret (Response 400 b)
   else
     limit <- lift (determine_incident_limit user_question) ;;
     incidents <- get_all_incidents TABLE_NAME limit ;;
     if is_dict_with incidents "error" then
       b <- lift (json_dumps None incidents) ;;
       mret (Response 500 b)
     else if negb (truthy incidents) then
       b <- lift (json_dumps None (PDict [("error", PStr "No incidents found")])) ;;
       mret (Response 404 b)
     else
       prompt <- lift (generate_user_query_prompt incidents (str_value user_question)) ;;
       response_text <- invoke_bedrock prompt ;;
       b <- lift (json_dumps None (PDict [("response", response_text)])) ;;
       mret (Response 200 b))%M.

(** [lambda_handler], lines 95-132. *)
Definition lambda_handler (event context : pyval) : M response :=
  try_except
    (lambda_handler_try event)
    (fun e =>
       b <- lift (json_dumps None (PDict [("error", PStr e)])) ;;
       mret (Response 500 b))%M.

End Program.

(** ** The specification's reading of the limit extractor *)











(** ** The specification's reading of the prompt formatter *)

(** The eight labels, each with the attribute it is read from. *)
Definition FIELDS : list (string * string) :=
  [("Incident ID", "id"); ("Title", "title"); ("Status", "status");
   ("Priority", "priority"); ("Urgency", "urgency"); ("Category", "category");
   ("Affected Service", "affectedService"); ("Root Cause", "rootCauseAnalysis")].

Definition LABELS : list string :=
  ["Incident ID"; "Title"; "Status"; "Priority"; "Urgency"; "Category";
   "Affected Service"; "Root Cause"].

(** The text shown for a field: its string when the item has the field and
    the field is string-typed, the placeholder otherwise. *)
Definition field_text (item : gmap string AttributeValue) (field : string) : string :=
  match item !! field with
  | Some (AV_S s) => s
  | _ => "N/A"
  end.

Definition expected_row (item : gmap string AttributeValue) : pyval :=
  PDict (map (fun lf => (fst lf, PStr (field_text item (snd lf)))) FIELDS).

Definition quoted (s : string) : string := DQUOTE +:+ s +:+ DQUOTE.

(** One line of a rendered record, without its indentation. *)
Definition render_field (item : gmap string AttributeValue) (lf : string * string)
  : string :=
  quoted (fst lf) +:+ ": " +:+ encode_basestring_ascii (field_text item (snd lf)).

Definition render_record (item : gmap string AttributeValue) : string :=
  "{" +:+ (LF +:+ "    ")
      +:+ String.concat ("," +:+ LF +:+ "    ") (map (render_field item) FIELDS)
      +:+ (LF +:+ "  ") +:+ "}".

Definition render_records (items : list (gmap string AttributeValue)) : string :=
  match items with
  | [] => "[]"
  | _ => "[" +:+ (LF +:+ "  ")
             +:+ String.concat ("," +:+ LF +:+ "  ") (map render_record items)
             +:+ LF +:+ "]"
  end.

(** The keys of a [dict], in its order. *)
Definition dict_keys (v : pyval) : list string :=
  match v with
  | PDict d => map fst d
  | _ => []
  end.

(** The loops of the encoder, named. *)
Definition encode_items (indent : option nat) (level : nat)
  : list pyval -> result (list string) :=
  fix encode_items (l : list pyval) : result (list string) :=
    match l with
    | [] => Ok []
    | value :: rest =>
        (chunk <- iterencode indent (S level) value ;;
         chunks <- encode_items rest ;;
         Ok (chunk :: chunks))%result
    end.

Definition encode_entries (indent : option nat) (level : nat)
  : list (string * pyval) -> result (list string) :=
  fix encode_entries (d : list (string * pyval)) : result (list string) :=
    match d with
    | [] => Ok []
    | (key, value) :: rest =>
        (chunk <- iterencode indent (S level) value ;;
         chunks <- encode_entries rest ;;
         Ok ((encode_basestring_ascii key +:+ key_separator +:+ chunk) :: chunks))%result
    end.

(** Two records with the same entries, in whatever order. *)
Definition same_entries (a b : pyval) : Prop :=
  match a, b with
  | PDict d1, PDict d2 => forall k, dict_lookup d1 k = dict_lookup d2 k
  | _, _ => a = b
  end.

(** ** The specification's reading of the handler *)

(** [{"error": msg}] for a message that needs no escape. *)
Definition error_body (msg : string) : string :=
  "{" +:+ quoted "error" +:+ ": " +:+ quoted msg +:+ "}".

(** [{"error": msg}] for any message. *)
Definition error_body_of (msg : string) : string :=
  "{" +:+ quoted "error" +:+ ": " +:+ encode_basestring_ascii msg +:+ "}".

Definition status_in_use (s : Z) : Prop :=
  s = 200 \/ s = 400 \/ s = 404 \/ s = 500.

Definition invokes_model (c : call) : Prop :=
  match c with
  | InvokeModelCall _ _ => True
  | ScanCall _ _ => False
  end.


(** ** Sample runtimes *)

Definition dumps_text (v : pyval) : string :=
  match json_dumps None v with
  | Ok s => s
  | Raise _ => EmptyString
  end.

(** A [json.loads] that knows the documents of a given list: it returns
    the one whose text it is given. *)
Definition loads_from (known : list pyval) (x : pyval) : result pyval :=
  let parse s :=
    match List.find (fun v => serializable v && String.eqb (dumps_text v) s) known with
    | Some v => Ok v
    | None => Raise "Expecting value: line 1 column 1 (char 0)"
    end in
  match x with
  | PStr s => parse s
  | PBytes b => parse (str b)
  | v => Raise ("the JSON object must be str, bytes or bytearray, not " +:+ type_name v)
  end.

Definition sample_runtime (known : list pyval) (scan_result model_result : result pyval)
  : runtime :=
  {| json_loads := loads_from known;
     dynamodb_scan := fun _ _ => scan_result;
     bedrock_invoke_model := fun _ _ => model_result |}.

Definition sample_item : gmap string AttributeValue :=
  <["id" := AV_S "INC-1"]> (<["title" := AV_S "Disk full"]> (<["priority" := AV_N "2"]> ∅)).

Definition sample_question : pyval :=
  PDict [("user_question", PStr "show the last 2 incidents")].

Definition sample_completion : pyval :=
  PDict [("content", PList [PDict [("type", PStr "text"); ("text", PStr "All good.")]])].

Definition sample_event (parsed : pyval) : pyval :=
  PDict [("body", PStr (dumps_text parsed))].

Definition sample_model_response : pyval :=
  PDict [("body", PBytes (chars (dumps_text sample_completion)))].

(** ** Induction on values, through lists and dicts *)

Section PyvalInduction.

Variable P : pyval -> Prop.
Hypothesis HNone : P PNone.
Hypothesis HBool : forall b, P (PBool b).
Hypothesis HInt : forall z, P (PInt z).
Hypothesis HFloat : forall f, P (PFloat f).
Hypothesis HStr : forall s, P (PStr s).
Hypothesis HBytes : forall b, P (PBytes b).
Hypothesis HList : forall l, Forall P l -> P (PList l).
Hypothesis HDict : forall d, Forall (fun kv => P (snd kv)) d -> P (PDict d).

Fixpoint pyval_nested_ind (v : pyval) : P v :=
  match v with
  | PNone => HNone
  | PBool b => HBool b
  | PInt z => HInt z
  | PFloat f => HFloat f
  | PStr s => HStr s
  | PBytes b => HBytes b
  | PList l =>
      HList l ((fix all (l : list pyval) : Forall P l :=
                  match l with
                  | [] => @List.Forall_nil _ P
                  | x :: r => @List.Forall_cons _ P x r (pyval_nested_ind x) (all r)
                  end) l)
  | PDict d =>
      HDict d ((fix all (d : list (string * pyval)) : Forall (fun kv => P (snd kv)) d :=
                  match d with
                  | [] => @List.Forall_nil _ _
                  | kv :: r =>
                      @List.Forall_cons _ (fun kv => P (snd kv)) kv r
                        (pyval_nested_ind (snd kv)) (all r)
                  end) d)
  end.

End PyvalInduction.

(** ** Further notions used by the properties of the code *)


(** The calls a request may add to the log: none, the scan, or the scan
    followed by the model call. *)
Definition calls_made (log log' : list call) : Prop :=
  log' = log \/
  (exists n, log' = log ++ [ScanCall TABLE_NAME n]) \/
  (exists n p, log' = log ++ [ScanCall TABLE_NAME n; InvokeModelCall MODEL_ID p]).

(** The number of line feeds in a text. *)
Fixpoint count_lf (s : string) : nat :=
  match s with
  | EmptyString => 0
  | String c s' => (if (code c =? 10)%N then 1 else 0) + count_lf s'
  end.

(** Whether every character of a text is printable ASCII or a line feed. *)
Fixpoint plain_ascii (s : string) : bool :=
  match s with
  | EmptyString => true
  | String c s' =>
      (((32 <=? code c) && (code c <=? 126)) || (code c =? 10))%N && plain_ascii s'
  end.

(** Whether every character of a text is printable ASCII, which rules
    out line feeds. *)
Fixpoint one_line (s : string) : bool :=
  match s with
  | EmptyString => true
  | String c s' => ((32 <=? code c) && (code c <=? 126))%N && one_line s'
  end.

(** Whether the floats of a value are written in printable ASCII. *)
Fixpoint floats_one_line (o : pyval) : bool :=
  match o with
  | PFloat f => one_line (float_repr f)
  | PList l => forallb floats_one_line l
  | PDict d => forallb (fun kv => floats_one_line (snd kv)) d
  | _ => true
  end.

(** ** Proof automation *)

Arguments char_matches : simpl never.



Ltac run_handler :=
  unfold lambda_handler, lambda_handler_try, get_all_incidents, try_except,
    mbind, lift, mret, call_scan.

(** * Proofs *)

(** ** The limit extractor *)
























(** ** The prompt formatter *)

Lemma iterencode_list indent level x l :
  iterencode indent level (PList (x :: l)) =
  (chunks <- encode_items indent level (x :: l) ;;
   Ok ("[" +:+ opening indent level
           +:+ String.concat (item_separator indent level) chunks
           +:+ closing indent level +:+ "]"))%result.
Proof. reflexivity. Qed.

Lemma iterencode_dict indent level kv d :
  iterencode indent level (PDict (kv :: d)) =
  (chunks <- encode_entries indent level (kv :: d) ;;
   Ok ("{" +:+ opening indent level
           +:+ String.concat (item_separator indent level) chunks
           +:+ closing indent level +:+ "}"))%result.
Proof. reflexivity. Qed.

Lemma dict_lookup_item_to_py (item : gmap string AttributeValue) field d :
  item_to_py item = PDict d ->
  dict_lookup d field = attr_to_py <$> (item !! field).
Proof.
  unfold item_to_py. intros [= <-].
  rewrite <- (list_to_map_to_list item) at 2.
  assert (Hnd : NoDup (map_to_list item).*1) by apply NoDup_fst_map_to_list.
  induction (map_to_list item) as [| [k a] l IH]; [reflexivity |].
  inversion Hnd as [| ? ? Hk Hnd']; subst. cbn [map dict_lookup fst snd list_to_map foldr].
  case_bool_decide as Hkf.
  - subst k. by rewrite lookup_insert_eq.
  - rewrite lookup_insert_ne by exact Hkf. auto.
Qed.

Lemma get_S_item (item : gmap string AttributeValue) field :
  get_S (item_to_py item) field = Ok (PStr (field_text item field)).
Proof.
  unfold get_S, field_text. destruct (item_to_py item) as [| | | | | | | d] eqn:Hd;
    try discriminate.
  cbn [py_get rbind]. rewrite (dict_lookup_item_to_py item field d Hd).
  destruct (item !! field) as [a |]; [| reflexivity].
  destruct a; reflexivity.
Qed.

Lemma format_incident_item (item : gmap string AttributeValue) :
  format_incident (item_to_py item) = Ok (expected_row item).
Proof. unfold format_incident. rewrite !get_S_item. reflexivity. Qed.

Lemma format_each_items (items : list (gmap string AttributeValue)) :
  format_each (map item_to_py items) = Ok (map expected_row items).
Proof.
  induction items as [| item items IH]; [reflexivity |].
  cbn [map format_each]. rewrite format_incident_item, IH. reflexivity.
Qed.

Lemma formatted_incidents_items (items : list (gmap string AttributeValue)) :
  formatted_incidents (PList (map item_to_py items)) = Ok (PList (map expected_row items)).
Proof.
  unfold formatted_incidents. cbn [py_iter rbind]. rewrite format_each_items. reflexivity.
Qed.

Lemma iterencode_expected_row (item : gmap string AttributeValue) :
  iterencode (Some 2%nat) 1 (expected_row item) = Ok (render_record item).
Proof. reflexivity. Qed.

Lemma encode_items_expected_rows (items : list (gmap string AttributeValue)) :
  encode_items (Some 2%nat) 0 (map expected_row items) = Ok (map render_record items).
Proof.
  induction items as [| item items IH]; [reflexivity |].
  cbn [map encode_items]. rewrite iterencode_expected_row, IH. reflexivity.
Qed.

Lemma format_incidents_for_prompt_items (items : list (gmap string AttributeValue)) :
  format_incidents_for_prompt (PList (map item_to_py items)) = Ok (render_records items).
Proof.
  unfold format_incidents_for_prompt. rewrite formatted_incidents_items.
  cbn [rbind]. unfold json_dumps. destruct items as [| item items]; [reflexivity |].
  cbn [map]. rewrite iterencode_list. rewrite <- (map_cons expected_row).
  rewrite encode_items_expected_rows. reflexivity.
Qed.

Lemma expected_row_fields (item : gmap string AttributeValue) label field :
  In (label, field) FIELDS ->
  exists d, expected_row item = PDict d /\
            dict_lookup d label = Some (PStr (field_text item field)).
Proof.
  intros Hin. eexists. split; [reflexivity |].
  unfold FIELDS in Hin. simpl in Hin.
  repeat (destruct Hin as [[= <- <-] | Hin]; [reflexivity |]). destruct Hin.
Qed.

(** C3. For every list of items, the formatter builds one row per item;
    each row has exactly the eight labels Incident ID, Title, Status,
    Priority, Urgency, Category, Affected Service, Root Cause, in that
    order, each holding the string of its field or "N/A" when the item has
    no such string field; the output is the indented JSON text of these
    rows. *)
Theorem format_incidents_for_prompt_fields (items : list (gmap string AttributeValue)) :
  exists rows,
    formatted_incidents (PList (map item_to_py items)) = Ok (PList rows) /\
    Forall2 (fun item row =>
               dict_keys row = LABELS /\
               forall label field, In (label, field) FIELDS ->
                 exists d, row = PDict d /\
                           dict_lookup d label = Some (PStr (field_text item field)))
            items rows /\
    format_incidents_for_prompt (PList (map item_to_py items)) = Ok (render_records items).
Proof.
  exists (map expected_row items).
  split; [apply formatted_incidents_items |].
  split; [| apply format_incidents_for_prompt_items].
  induction items as [| item items IH]; constructor; [| exact IH].
  split; [reflexivity |]. intros label field Hin. apply expected_row_fields, Hin.
Qed.

Lemma field_text_not_string (item : gmap string AttributeValue) field a f :
  string_of_attr a = None ->
  field_text (<[field := a]> item) f = field_text (delete field item) f.
Proof.
  intros Ha. unfold field_text. destruct (decide (field = f)) as [-> | Hne].
  - rewrite lookup_insert_eq, lookup_delete_eq. destruct a; try reflexivity; discriminate.
  - rewrite lookup_insert_ne, lookup_delete_ne by exact Hne. reflexivity.
Qed.

Lemma expected_row_not_string (item : gmap string AttributeValue) field a :
  string_of_attr a = None ->
  expected_row (<[field := a]> item) = expected_row (delete field item).
Proof.
  intros Ha. unfold expected_row. f_equal. apply map_ext. intros lf.
  rewrite (field_text_not_string item field a _ Ha). reflexivity.
Qed.

(** C10. Only string-typed values are unwrapped: a field that an item
    holds under any other type tag is rendered as "N/A", and the output is
    the one the formatter gives when the item does not have the field. *)
Theorem non_string_attribute_is_placeholder
  (before after : list (gmap string AttributeValue))
  (item : gmap string AttributeValue) (field : string) (a : AttributeValue) :
  string_of_attr a = None ->
  get_S (item_to_py (<[field := a]> item)) field = Ok (PStr "N/A") /\
  formatted_incidents (PList (map item_to_py (before ++ <[field := a]> item :: after))) =
  formatted_incidents (PList (map item_to_py (before ++ delete field item :: after))) /\
  format_incidents_for_prompt
    (PList (map item_to_py (before ++ <[field := a]> item :: after))) =
  format_incidents_for_prompt
    (PList (map item_to_py (before ++ delete field item :: after))).
Proof.
  intros Ha.
  assert (Hrows : formatted_incidents
                    (PList (map item_to_py (before ++ <[field := a]> item :: after))) =
                  formatted_incidents
                    (PList (map item_to_py (before ++ delete field item :: after)))).
  { rewrite !formatted_incidents_items, !map_app. cbn [map].
    rewrite (expected_row_not_string item field a Ha). reflexivity. }
  split; [| split; [exact Hrows |]].
  - rewrite get_S_item. unfold field_text. rewrite lookup_insert_eq.
    destruct a; try reflexivity; discriminate.
  - unfold format_incidents_for_prompt. rewrite Hrows. reflexivity.
Qed.

Lemma non_string_attribute_is_placeholder_witness :
  get_S (item_to_py (<["priority" := AV_N "2"]> ∅)) "priority" = Ok (PStr "N/A").
Proof.
  exact (proj1 (non_string_attribute_is_placeholder [] [] ∅ "priority" (AV_N "2")
                  eq_refl)).
Defined.

Lemma get_S_same_entries a b field :
  same_entries a b -> get_S a field = get_S b field.
Proof.
  intros Hab. destruct a, b; simpl in Hab; try (rewrite Hab; reflexivity);
    try discriminate; try reflexivity.
  unfold get_S. cbn [py_get]. rewrite Hab. reflexivity.
Qed.

Lemma format_incident_same_entries a b :
  same_entries a b -> format_incident a = format_incident b.
Proof.
  intros Hab. unfold format_incident.
  rewrite !(get_S_same_entries a b _ Hab). reflexivity.
Qed.

Lemma format_each_same_entries l1 l2 :
  Forall2 same_entries l1 l2 -> format_each l1 = format_each l2.
Proof.
  induction 1 as [| a b l1 l2 Hab _ IH]; [reflexivity |].
  cbn [format_each]. rewrite (format_incident_same_entries a b Hab), IH. reflexivity.
Qed.

(** C8. The formatter is a function of its input alone: run twice in a
    row on the same list it returns the same text both times and adds no
    call to the log; and lists whose records are equal as dicts, whatever
    the order of their entries, give the same text. *)
Theorem format_incidents_for_prompt_deterministic :
  (forall (incidents : pyval) (log : list call),
      let first_call := lift (format_incidents_for_prompt incidents) log in
      let second_call := lift (format_incidents_for_prompt incidents) (snd first_call) in
      fst second_call = fst first_call /\ snd first_call = log /\ snd second_call = log) /\
  (forall l1 l2,
      Forall2 same_entries l1 l2 ->
      format_incidents_for_prompt (PList l1) = format_incidents_for_prompt (PList l2)).
Proof.
  split.
  - intros incidents log. repeat split.
  - intros l1 l2 H. unfold format_incidents_for_prompt, formatted_incidents.
    cbn [py_iter rbind]. rewrite (format_each_same_entries l1 l2 H). reflexivity.
Qed.

Lemma format_incidents_for_prompt_deterministic_witness :
  format_incidents_for_prompt
    (PList [PDict [("id", PDict [("S", PStr "INC-1")]); ("title", PDict [("S", PStr "Disk")])]]) =
  format_incidents_for_prompt
    (PList [PDict [("title", PDict [("S", PStr "Disk")]); ("id", PDict [("S", PStr "INC-1")])]]).
Proof.
  apply (proj2 format_incidents_for_prompt_deterministic).
  constructor; [| constructor].
  intros k. simpl. repeat case_bool_decide; congruence.
Defined.


(** ** Serializable values *)


(** ** The request handler *)

Lemma json_dumps_error msg :
  json_dumps None (PDict [("error", PStr msg)]) = Ok (error_body_of msg).
Proof. reflexivity. Qed.

Lemma error_body_plain_400 :
  error_body_of "Please provide a user question" = error_body "Please provide a user question".
Proof. reflexivity. Qed.

Lemma error_body_plain_404 :
  error_body_of "No incidents found" = error_body "No incidents found".
Proof. reflexivity. Qed.

Section HandlerProofs.

Variable rt : runtime.

(** The fetch never raises: it returns what the scan holds under "Items"
    or an error dict, and logs exactly the scan. *)
Lemma get_all_incidents_total table limit log :
  exists v, get_all_incidents rt table limit log = (Ok v, log ++ [ScanCall table limit]).
Proof.
  unfold get_all_incidents, try_except, mbind, lift, mret, call_scan.
  destruct (dynamodb_scan rt table limit) as [resp | e]; [| eauto].
  destruct (py_get resp "Items" (PList [])); eauto.
Qed.

Lemma get_all_incidents_failure table limit log e :
  dynamodb_scan rt table limit = Raise e ->
  get_all_incidents rt table limit log =
  (Ok (PDict [("error", PStr ("Error fetching incidents: " +:+ e))]),
   log ++ [ScanCall table limit]).
Proof.
  intros H. unfold get_all_incidents, try_except, mbind, lift, mret, call_scan.
  rewrite H. reflexivity.
Qed.

Lemma get_all_incidents_success table limit log resp items :
  dynamodb_scan rt table limit = Ok resp ->
  py_get resp "Items" (PList []) = Ok items ->
  get_all_incidents rt table limit log = (Ok items, log ++ [ScanCall table limit]).
Proof.
  intros H1 H2. unfold get_all_incidents, try_except, mbind, lift, mret, call_scan.
  rewrite H1, H2. reflexivity.
Qed.

Lemma bedrock_payload_dumps prompt :
  json_dumps None (bedrock_payload prompt) = Ok (dumps_text (bedrock_payload prompt)).
Proof. reflexivity. Qed.





Lemma invoke_bedrock_failure prompt log e :
  bedrock_invoke_model rt MODEL_ID (dumps_text (bedrock_payload prompt)) = Raise e ->
  invoke_bedrock rt prompt log =
  (Ok (PDict [("error", PStr ("Error invoking Bedrock: " +:+ e))]),
   log ++ [InvokeModelCall MODEL_ID (dumps_text (bedrock_payload prompt))]).
Proof.
  intros H. unfold invoke_bedrock, try_except, mbind, lift, mret, call_invoke_model.
  rewrite bedrock_payload_dumps, H. reflexivity.
Qed.

End HandlerProofs.

(** C4. When the parsed body is an object without "user_question", or with
    an empty one, the handler answers 400 with the body
    {"error": "Please provide a user question"} and calls no client. *)
Theorem missing_question_400 (rt : runtime) (event context raw : pyval)
  (d : list (string * pyval)) (log : list call) :
  py_getitem_key event "body" = Ok raw ->
  json_loads rt raw = Ok (PDict d) ->
  dict_lookup d "user_question" = None \/
  dict_lookup d "user_question" = Some (PStr EmptyString) ->
  lambda_handler rt event context log =
  (Ok (Response 400 (error_body "Please provide a user question")), log).
Proof.
  intros Hraw Hparsed Hq. run_handler. rewrite Hraw, Hparsed. cbn [py_get].
  destruct Hq as [-> | ->]; reflexivity.
Qed.

Lemma missing_question_400_witness :
  lambda_handler (sample_runtime [PDict []] (Raise "unused") (Raise "unused"))
    (sample_event (PDict [])) PNone [] =
  (Ok (Response 400 (error_body "Please provide a user question")), []).
Proof.
  apply (missing_question_400 _ _ _ (PStr (dumps_text (PDict []))) []);
    [reflexivity | reflexivity | left; reflexivity].
Defined.

Lemma truthy_question q : q <> EmptyString -> truthy (PStr q) = true.
Proof. intros Hq. cbn [truthy]. case_bool_decide; [contradiction | reflexivity]. Qed.

(** The request whose scan raises. *)
Lemma handler_on_fetch_failure (rt : runtime) (event context raw parsed : pyval)
  (q e : string) (limit : Z) (log : list call) :
  py_getitem_key event "body" = Ok raw ->
  json_loads rt raw = Ok parsed ->
  py_get parsed "user_question" (PStr EmptyString) = Ok (PStr q) ->
  q <> EmptyString ->
  determine_incident_limit (PStr q) = Ok limit ->
  dynamodb_scan rt TABLE_NAME limit = Raise e ->
  lambda_handler rt event context log =
  (Ok (Response 500 (error_body_of ("Error fetching incidents: " +:+ e))),
   log ++ [ScanCall TABLE_NAME limit]).
Proof.
  intros Hraw Hparsed Hq Hne Hlimit Hscan.
  unfold lambda_handler, lambda_handler_try, try_except, mbind.
  unfold lift at 1 2 3. rewrite Hraw, Hparsed, Hq, (truthy_question q Hne).
  cbn [negb]. unfold lift at 1. rewrite Hlimit.
  rewrite (get_all_incidents_failure rt TABLE_NAME limit log e Hscan).
  reflexivity.
Qed.

(** C5. When the scan raises, the handler answers 500 with the body
    {"error": "Error fetching incidents: " + message}, the message of the
    store unchanged, and the log gains the scan but no model call. *)
Theorem fetch_failure_500 (rt : runtime) (event context raw parsed : pyval)
  (q e : string) (limit : Z) (log : list call) :
  py_getitem_key event "body" = Ok raw ->
  json_loads rt raw = Ok parsed ->
  py_get parsed "user_question" (PStr EmptyString) = Ok (PStr q) ->
  q <> EmptyString ->
  determine_incident_limit (PStr q) = Ok limit ->
  dynamodb_scan rt TABLE_NAME limit = Raise e ->
  exists log',
    lambda_handler rt event context log =
    (Ok (Response 500 (error_body_of ("Error fetching incidents: " +:+ e))), log') /\
    json_dumps None (PDict [("error", PStr ("Error fetching incidents: " +:+ e))]) =
    Ok (error_body_of ("Error fetching incidents: " +:+ e)) /\
    log' = log ++ [ScanCall TABLE_NAME limit] /\
    forall c, In c log' -> invokes_model c -> In c log.
Proof.
  intros Hraw Hparsed Hq Hne Hlimit Hscan.
  exists (log ++ [ScanCall TABLE_NAME limit]).
  split; [| split; [reflexivity | split; [reflexivity |]]].
  - exact (handler_on_fetch_failure rt event context raw parsed q e limit log
             Hraw Hparsed Hq Hne Hlimit Hscan).
  - intros c Hin Hc. apply in_app_or in Hin as [Hin | [<- | []]]; [exact Hin | destruct Hc].
Qed.

Lemma fetch_failure_500_witness :
  exists log',
    lambda_handler (sample_runtime [sample_question] (Raise "table not found") (Raise "unused"))
      (sample_event sample_question) PNone [] =
    (Ok (Response 500 (error_body_of ("Error fetching incidents: " +:+ "table not found"))),
     log') /\
    json_dumps None (PDict [("error", PStr ("Error fetching incidents: " +:+ "table not found"))]) =
    Ok (error_body_of ("Error fetching incidents: " +:+ "table not found")) /\
    log' = [] ++ [ScanCall TABLE_NAME 2] /\
    forall c, In c log' -> invokes_model c -> In c [].
Proof.
  apply (fetch_failure_500 _ _ _ (PStr (dumps_text sample_question)) sample_question
           "show the last 2 incidents");
    [reflexivity | reflexivity | reflexivity | discriminate | reflexivity | reflexivity].
Defined.

(** C6. When the scan succeeds and holds no item, the handler answers 404
    with the body {"error": "No incidents found"}; when the scan raises,
    the same request is answered 500 instead. *)
Theorem empty_fetch_404 (rt : runtime) (event context raw parsed : pyval)
  (q : string) (limit : Z) (log : list call) :
  py_getitem_key event "body" = Ok raw ->
  json_loads rt raw = Ok parsed ->
  py_get parsed "user_question" (PStr EmptyString) = Ok (PStr q) ->
  q <> EmptyString ->
  determine_incident_limit (PStr q) = Ok limit ->
  (forall resp,
      dynamodb_scan rt TABLE_NAME limit = Ok resp ->
      py_get resp "Items" (PList []) = Ok (PList []) ->
      lambda_handler rt event context log =
      (Ok (Response 404 (error_body "No incidents found")),
       log ++ [ScanCall TABLE_NAME limit])) /\
  (forall e,
      dynamodb_scan rt TABLE_NAME limit = Raise e ->
      exists b,
        lambda_handler rt event context log =
        (Ok (Response 500 b), log ++ [ScanCall TABLE_NAME limit])).
Proof.
  intros Hraw Hparsed Hq Hne Hlimit. split.
  - intros resp Hscan Hitems.
    unfold lambda_handler, lambda_handler_try, try_except, mbind.
    unfold lift at 1 2 3. rewrite Hraw, Hparsed, Hq, (truthy_question q Hne).
    cbn [negb]. unfold lift at 1. rewrite Hlimit.
    rewrite (get_all_incidents_success rt TABLE_NAME limit log resp _ Hscan Hitems).
    reflexivity.
  - intros e Hscan. eexists.
    exact (handler_on_fetch_failure rt event context raw parsed q e limit log
             Hraw Hparsed Hq Hne Hlimit Hscan).
Qed.

Lemma empty_fetch_404_witness :
  lambda_handler
    (sample_runtime [sample_question] (Ok (PDict [("Items", PList [])])) (Raise "unused"))
    (sample_event sample_question) PNone [] =
  (Ok (Response 404 (error_body "No incidents found")), [] ++ [ScanCall TABLE_NAME 2]).
Proof.
  apply (proj1 (empty_fetch_404
                  (sample_runtime [sample_question] (Ok (PDict [("Items", PList [])]))
                     (Raise "unused"))
                  (sample_event sample_question) PNone
                  (PStr (dumps_text sample_question))
                  sample_question "show the last 2 incidents" 2 []
                  eq_refl eq_refl eq_refl ltac:(discriminate) eq_refl)
           (PDict [("Items", PList [])]));
    reflexivity.
Defined.







Lemma lambda_handler_try_status (rt : runtime) (event : pyval) (log : list call)
  (r : response) (log' : list call) :
  lambda_handler_try rt event log = (Ok r, log') -> status_in_use (statusCode r).
Proof.
  unfold lambda_handler_try, mbind. unfold lift at 1 2 3.
  destruct (py_getitem_key event "body") as [raw | e]; [| discriminate].
  destruct (json_loads rt raw) as [parsed | e]; [| discriminate].
  destruct (py_get parsed "user_question" (PStr EmptyString)) as [question | e];
    [| discriminate].
  destruct (truthy question); cbn [negb].
  - unfold lift at 1.
    destruct (determine_incident_limit question) as [limit | e]; [| discriminate].
    destruct (get_all_incidents_total rt TABLE_NAME limit log) as [incidents ->].
    destruct (is_dict_with incidents "error").
    + unfold lift, mret. destruct (json_dumps None incidents); [| discriminate].
      intros [= <- _]. unfold status_in_use. cbn. tauto.
    + destruct (truthy incidents); cbn [negb].
      * unfold lift at 1.
        destruct (generate_user_query_prompt incidents (str_value question))
          as [prompt | e]; [| discriminate].
        destruct (invoke_bedrock rt prompt _) as [[text | e] log1]; [| discriminate].
        unfold lift, mret. destruct (json_dumps None _); [| discriminate].
        intros [= <- _]. unfold status_in_use. cbn. tauto.
      * intros [= <- _]. unfold status_in_use. cbn. tauto.
  - intros [= <- _]. unfold status_in_use. cbn. tauto.
Qed.

(** C9. For every event, the handler returns a response whose status is
    200, 400, 404 or 500. *)
Theorem status_codes_in_use (rt : runtime) (event context : pyval) (log : list call) :
  exists r log',
    lambda_handler rt event context log = (Ok r, log') /\
    status_in_use (statusCode r).
Proof.
  unfold lambda_handler, try_except.
  destruct (lambda_handler_try rt event log) as [[r | e] log1] eqn:Htry.
  - exists r, log1. split; [reflexivity |].
    exact (lambda_handler_try_status rt event log r log1 Htry).
  - eexists _, log1. split; [reflexivity |]. unfold status_in_use. cbn. tauto.
Qed.

(** C7. For every event, the handler returns a response and raises
    nothing: when its [try] block returns, that response is the answer;
    when an exception leaves the block, the answer is 500 with the body
    {"error": message}, the message that of the exception. *)
Theorem lambda_handler_never_raises (rt : runtime) (event context : pyval)
  (log : list call) :
  exists r log',
    lambda_handler rt event context log = (Ok r, log') /\
    (forall e log1,
        lambda_handler_try rt event log = (Raise e, log1) ->
        r = Response 500 (error_body_of e) /\ log' = log1 /\
        json_dumps None (PDict [("error", PStr e)]) = Ok (error_body_of e)) /\
    (forall r0 log1,
        lambda_handler_try rt event log = (Ok r0, log1) -> r = r0 /\ log' = log1).
Proof.
  unfold lambda_handler, try_except.
  destruct (lambda_handler_try rt event log) as [[r | e] log1] eqn:Htry.
  - exists r, log1. split; [reflexivity |]. split; [discriminate |].
    intros r0 log2 [= <- <-]. auto.
  - exists (Response 500 (error_body_of e)), log1. split; [reflexivity |].
    split; [| discriminate].
    intros e0 log2 [= <- <-]. auto.
Qed.

Lemma lambda_handler_never_raises_witness :
  lambda_handler (sample_runtime [] (Raise "unused") (Raise "unused")) PNone PNone [] =
  (Ok (Response 500 (error_body_of "'NoneType' object is not subscriptable")), []).
Proof.
  destruct (lambda_handler_never_raises
              (sample_runtime [] (Raise "unused") (Raise "unused")) PNone PNone [])
    as (r & log' & -> & Hraise & _).
  destruct (Hraise "'NoneType' object is not subscriptable" [] eq_refl) as (-> & -> & _).
  reflexivity.
Defined.

(** ** Sample runs *)

Example limit_12 :
  determine_incident_limit (PStr "Show me the LAST 12 Incidents please") = Ok 12.
Proof. reflexivity. Qed.

Example limit_default :
  determine_incident_limit (PStr "what broke last week?") = Ok 5.
Proof. reflexivity. Qed.

Example limit_leftmost :
  determine_incident_limit (PStr "last 3 incidents, not last 12 incidents") = Ok 3.
Proof. reflexivity. Qed.

Example limit_leading_zeros :
  determine_incident_limit (PStr "last 007 incidents") = Ok 7.
Proof. reflexivity. Qed.

Example limit_two_spaces :
  determine_incident_limit (PStr "last  5 incidents") = Ok 5.
Proof. reflexivity. Qed.

Example limit_inside_words :
  determine_incident_limit (PStr "blast 3 incidentsX") = Ok 3.
Proof. reflexivity. Qed.

Example limit_not_a_string :
  determine_incident_limit (PInt 7) =
  Raise "expected string or bytes-like object, got 'int'".
Proof. reflexivity. Qed.

Example format_no_incident :
  format_incidents_for_prompt (PList []) = Ok "[]".
Proof. reflexivity. Qed.

Example format_one_incident :
  format_incidents_for_prompt (PList [item_to_py sample_item]) =
  Ok (render_records [sample_item]).
Proof. vm_compute. reflexivity. Qed.

Example format_not_a_record :
  format_incidents_for_prompt (PList [PInt 1]) =
  Raise "'int' object has no attribute 'get'".
Proof. reflexivity. Qed.

Example handler_model_failure_is_200 :
  lambda_handler
    (sample_runtime [sample_question]
       (Ok (PDict [("Items", PList [item_to_py sample_item])])) (Raise "throttled"))
    (sample_event sample_question) PNone [] =
  (Ok (Response 200
         ("{" +:+ quoted "response" +:+ ": "
              +:+ error_body "Error invoking Bedrock: throttled" +:+ "}")),
   [ScanCall TABLE_NAME 2;
    InvokeModelCall MODEL_ID
      (dumps_text (bedrock_payload
         (match generate_user_query_prompt (PList [item_to_py sample_item])
                  "show the last 2 incidents" with
          | Ok prompt => prompt
          | Raise _ => EmptyString
          end)))]).
Proof. vm_compute. reflexivity. Qed.

Example handler_question_not_a_string :
  lambda_handler
    (sample_runtime [PDict [("user_question", PInt 7)]] (Raise "unused") (Raise "unused"))
    (sample_event (PDict [("user_question", PInt 7)])) PNone [] =
  (Ok (Response 500 (error_body "expected string or bytes-like object, got 'int'")), []).
Proof. vm_compute. reflexivity. Qed.

(** * Further properties of the code *)

(** ** The limit extractor *)














(** ** The two gateways *)

(** X4. The fetch never raises and scans exactly once: it returns the
    error dict when the scan raises or answers with something that is not
    a dict, and what the answer holds under "Items" otherwise, the empty
    list when the answer has no such key. *)
Theorem get_all_incidents_outcome (rt : runtime) (table : string) (limit : Z)
  (log : list call) :
  exists v,
    get_all_incidents rt table limit log = (Ok v, log ++ [ScanCall table limit]) /\
    (forall e,
        dynamodb_scan rt table limit = Raise e ->
        v = PDict [("error", PStr ("Error fetching incidents: " +:+ e))]) /\
    (forall d,
        dynamodb_scan rt table limit = Ok (PDict d) ->
        v = from_option id (PList []) (dict_lookup d "Items")) /\
    (forall resp,
        dynamodb_scan rt table limit = Ok resp ->
        (forall d, resp <> PDict d) ->
        v = PDict [("error",
                    PStr ("Error fetching incidents: " +:+
                          ("'" +:+ type_name resp +:+ "' object has no attribute 'get'")))]).
Proof.
  unfold get_all_incidents, try_except, mbind, lift, mret, call_scan.
  destruct (dynamodb_scan rt table limit) as [resp | e].
  - destruct resp;
      (eexists; split; [reflexivity |]; split; [discriminate |]; split;
       [intros d' [= <-] || discriminate | intros resp' [= <-] Hnd]);
      try reflexivity.
    destruct (Hnd d eq_refl).
  - eexists. split; [reflexivity |]. split; [intros e' [= <-]; reflexivity |].
    split; [discriminate | intros resp' [=]].
Qed.

Lemma get_all_incidents_outcome_witness :
  get_all_incidents (sample_runtime [] (Ok (PDict [("Count", PInt 0)])) (Raise "unused"))
    TABLE_NAME 5 [] =
  (Ok (PList []), [ScanCall TABLE_NAME 5]).
Proof.
  destruct (get_all_incidents_outcome
              (sample_runtime [] (Ok (PDict [("Count", PInt 0)])) (Raise "unused"))
              TABLE_NAME 5 []) as (v & -> & _ & Hitems & _).
  rewrite (Hitems [("Count", PInt 0)] eq_refl). reflexivity.
Defined.

Lemma invoke_bedrock_logs (rt : runtime) prompt log :
  exists v,
    invoke_bedrock rt prompt log =
    (Ok v, log ++ [InvokeModelCall MODEL_ID (dumps_text (bedrock_payload prompt))]).
Proof.
  unfold invoke_bedrock, try_except, mbind, lift, mret, call_invoke_model.
  rewrite bedrock_payload_dumps.
  destruct (bedrock_invoke_model rt MODEL_ID _) as [resp | e]; [| eexists; reflexivity].
  destruct (py_getitem_key resp "body") as [stream | e]; [| eexists; reflexivity].
  destruct (py_read stream) as [raw | e]; [| eexists; reflexivity].
  destruct (json_loads rt raw) as [response_body | e]; [| eexists; reflexivity].
  destruct (py_get response_body "content" _) as [content | e]; [| eexists; reflexivity].
  destruct (py_getitem_index content 0) as [first | e]; [| eexists; reflexivity].
  destruct (py_get first "text" _) as [text | e]; eexists; reflexivity.
Qed.

(** X5. The model gateway never raises and calls the model exactly once,
    with the fixed model identifier and the JSON text of the payload,
    which exists for every prompt; when the call raises, the gateway
    returns the error dict with the message of the exception. *)
Theorem invoke_bedrock_outcome (rt : runtime) (prompt : string) (log : list call) :
  exists v payload,
    json_dumps None (bedrock_payload prompt) = Ok payload /\
    invoke_bedrock rt prompt log = (Ok v, log ++ [InvokeModelCall MODEL_ID payload]) /\
    (forall e,
        bedrock_invoke_model rt MODEL_ID payload = Raise e ->
        v = PDict [("error", PStr ("Error invoking Bedrock: " +:+ e))]).
Proof.
  destruct (invoke_bedrock_logs rt prompt log) as [v Hv].
  exists v, (dumps_text (bedrock_payload prompt)).
  split; [apply bedrock_payload_dumps |]. split; [exact Hv |].
  intros e He. rewrite (invoke_bedrock_failure rt prompt log e He) in Hv. congruence.
Qed.

Lemma invoke_bedrock_outcome_witness :
  exists v payload,
    json_dumps None (bedrock_payload "hello") = Ok payload /\
    invoke_bedrock (sample_runtime [] (Raise "unused") (Raise "throttled")) "hello" [] =
    (Ok v, [] ++ [InvokeModelCall MODEL_ID payload]) /\
    v = PDict [("error", PStr ("Error invoking Bedrock: " +:+ "throttled"))].
Proof.
  destruct (invoke_bedrock_outcome
              (sample_runtime [] (Raise "unused") (Raise "throttled")) "hello" [])
    as (v & payload & Hp & Hv & Hfail).
  exists v, payload. split; [exact Hp |]. split; [exact Hv |].
  apply Hfail. reflexivity.
Defined.

Lemma invoke_bedrock_parsed (rt : runtime) prompt log resp stream raw response_body :
  bedrock_invoke_model rt MODEL_ID (dumps_text (bedrock_payload prompt)) = Ok resp ->
  py_getitem_key resp "body" = Ok stream ->
  py_read stream = Ok raw ->
  json_loads rt raw = Ok response_body ->
  invoke_bedrock rt prompt log =
  try_except
    (content <- lift (py_get response_body "content" (PList [PDict []])) ;;
     first <- lift (py_getitem_index content 0) ;;
     lift (py_get first "text" (PStr EmptyString)))%M
    (fun e => mret (PDict [("error", PStr ("Error invoking Bedrock: " +:+ e))]))
    (log ++ [InvokeModelCall MODEL_ID (dumps_text (bedrock_payload prompt))]).
Proof.
  intros Hresp Hstream Hraw Hbody.
  unfold invoke_bedrock, try_except, mbind, lift, mret, call_invoke_model.
  rewrite bedrock_payload_dumps, Hresp, Hstream, Hraw, Hbody. reflexivity.
Qed.

(** X6. From the parsed reply of the model the gateway returns the text of
    the first segment of "content" and ignores the others; a first segment
    without "text", and a reply without "content", give the empty string. *)
Theorem invoke_bedrock_first_text (rt : runtime) (prompt : string) (log : list call)
  (resp stream raw : pyval) (d : list (string * pyval)) :
  bedrock_invoke_model rt MODEL_ID (dumps_text (bedrock_payload prompt)) = Ok resp ->
  py_getitem_key resp "body" = Ok stream ->
  py_read stream = Ok raw ->
  json_loads rt raw = Ok (PDict d) ->
  (forall segment others,
      dict_lookup d "content" = Some (PList (PDict segment :: others)) ->
      fst (invoke_bedrock rt prompt log) =
      Ok (from_option id (PStr EmptyString) (dict_lookup segment "text"))) /\
  (dict_lookup d "content" = None ->
   fst (invoke_bedrock rt prompt log) = Ok (PStr EmptyString)).
Proof.
  intros Hresp Hstream Hraw Hbody.
  rewrite (invoke_bedrock_parsed rt prompt log resp stream raw (PDict d)
             Hresp Hstream Hraw Hbody).
  unfold try_except, mbind, lift, mret. cbn [py_get]. split.
  - intros segment others ->. reflexivity.
  - intros ->. reflexivity.
Qed.

Lemma invoke_bedrock_first_text_witness :
  fst (invoke_bedrock
         (sample_runtime [sample_completion] (Raise "unused") (Ok sample_model_response))
         "hello" []) =
  Ok (PStr "All good.").
Proof.
  apply (proj1 (invoke_bedrock_first_text
                  (sample_runtime [sample_completion] (Raise "unused")
                     (Ok sample_model_response))
                  "hello" [] sample_model_response
                  (PBytes (chars (dumps_text sample_completion)))
                  (PBytes (chars (dumps_text sample_completion)))
                  [("content", PList [PDict [("type", PStr "text"); ("text", PStr "All good.")]])]
                  eq_refl eq_refl eq_refl eq_refl)
           [("type", PStr "text"); ("text", PStr "All good.")] []).
  reflexivity.
Defined.

(** X7. A reply whose "content" is an empty list yields no text: the
    gateway returns its error dict, with the message of the failed index,
    instead of raising. *)
Theorem invoke_bedrock_empty_content (rt : runtime) (prompt : string) (log : list call)
  (resp stream raw : pyval) (d : list (string * pyval)) :
  bedrock_invoke_model rt MODEL_ID (dumps_text (bedrock_payload prompt)) = Ok resp ->
  py_getitem_key resp "body" = Ok stream ->
  py_read stream = Ok raw ->
  json_loads rt raw = Ok (PDict d) ->
  dict_lookup d "content" = Some (PList []) ->
  fst (invoke_bedrock rt prompt log) =
  Ok (PDict [("error", PStr "Error invoking Bedrock: list index out of range")]).
Proof.
  intros Hresp Hstream Hraw Hbody Hcontent.
  rewrite (invoke_bedrock_parsed rt prompt log resp stream raw (PDict d)
             Hresp Hstream Hraw Hbody).
  unfold try_except, mbind, lift, mret. cbn [py_get]. rewrite Hcontent. reflexivity.
Qed.

Lemma invoke_bedrock_empty_content_witness :
  fst (invoke_bedrock
         (sample_runtime [PDict [("content", PList [])]] (Raise "unused")
            (Ok (PDict [("body",
                         PBytes (chars (dumps_text (PDict [("content", PList [])]))))])))
         "hello" []) =
  Ok (PDict [("error", PStr "Error invoking Bedrock: list index out of range")]).
Proof.
  apply (invoke_bedrock_empty_content
           (sample_runtime [PDict [("content", PList [])]] (Raise "unused")
              (Ok (PDict [("body",
                           PBytes (chars (dumps_text (PDict [("content", PList [])]))))])))
           "hello" []
           (PDict [("body", PBytes (chars (dumps_text (PDict [("content", PList [])]))))])
           (PBytes (chars (dumps_text (PDict [("content", PList [])]))))
           (PBytes (chars (dumps_text (PDict [("content", PList [])]))))
           [("content", PList [])]);
    reflexivity.
Defined.

(** ** The request handler, continued *)

(** X8. A question that is present but false in Python's sense (the empty
    string, zero, false, null, an empty list or object) is refused like a
    missing one: 400, and no client is called. *)
Theorem falsy_question_400 (rt : runtime) (event context raw parsed question : pyval)
  (log : list call) :
  py_getitem_key event "body" = Ok raw ->
  json_loads rt raw = Ok parsed ->
  py_get parsed "user_question" (PStr EmptyString) = Ok question ->
  truthy question = false ->
  lambda_handler rt event context log =
  (Ok (Response 400 (error_body "Please provide a user question")), log).
Proof.
  intros Hraw Hparsed Hq Hfalse. run_handler. rewrite Hraw, Hparsed, Hq, Hfalse.
  reflexivity.
Qed.

Lemma falsy_question_400_witness :
  lambda_handler
    (sample_runtime [PDict [("user_question", PInt 0)]] (Raise "unused") (Raise "unused"))
    (sample_event (PDict [("user_question", PInt 0)])) PNone [] =
  (Ok (Response 400 (error_body "Please provide a user question")), []).
Proof.
  apply (falsy_question_400 _ _ _
           (PStr (dumps_text (PDict [("user_question", PInt 0)])))
           (PDict [("user_question", PInt 0)]) (PInt 0));
    reflexivity.
Defined.

Lemma determine_incident_limit_not_str v :
  (forall s, v <> PStr s) -> exists e, determine_incident_limit v = Raise e.
Proof.
  intros Hv. destruct v; try (eexists; reflexivity). destruct (Hv s eq_refl).
Qed.

(** X9. A question that is true in Python's sense but is not a string (a
    number, a list, an object) makes the extractor raise; the handler
    answers 500 with the message of that exception and calls no client. *)
Theorem non_string_question_500 (rt : runtime) (event context raw parsed question : pyval)
  (log : list call) :
  py_getitem_key event "body" = Ok raw ->
  json_loads rt raw = Ok parsed ->
  py_get parsed "user_question" (PStr EmptyString) = Ok question ->
  truthy question = true ->
  (forall s, question <> PStr s) ->
  exists e,
    determine_incident_limit question = Raise e /\
    lambda_handler rt event context log = (Ok (Response 500 (error_body_of e)), log).
Proof.
  intros Hraw Hparsed Hq Htrue Hns.
  destruct (determine_incident_limit_not_str question Hns) as [e He].
  exists e. split; [exact He |].
  run_handler. rewrite Hraw, Hparsed, Hq, Htrue, He. reflexivity.
Qed.

Lemma non_string_question_500_witness :
  exists e,
    determine_incident_limit (PList [PStr "last 3 incidents"]) = Raise e /\
    lambda_handler
      (sample_runtime [PDict [("user_question", PList [PStr "last 3 incidents"])]]
         (Raise "unused") (Raise "unused"))
      (sample_event (PDict [("user_question", PList [PStr "last 3 incidents"])]))
      PNone [] =
    (Ok (Response 500 (error_body_of e)), []).
Proof.
  apply (non_string_question_500 _ _ _
           (PStr (dumps_text (PDict [("user_question", PList [PStr "last 3 incidents"])])))
           (PDict [("user_question", PList [PStr "last 3 incidents"])])
           (PList [PStr "last 3 incidents"]));
    try reflexivity.
  intros s. discriminate.
Defined.

(** X10. A request that cannot be read is answered 500 with the message
    of the exception and without any client call: an event without
    "body", a body that [json.loads] rejects, or a parsed body that is not
    an object. *)
Theorem unreadable_request_500 (rt : runtime) (event context : pyval) (e : string)
  (log : list call) :
  py_getitem_key event "body" = Raise e \/
  (exists raw, py_getitem_key event "body" = Ok raw /\ json_loads rt raw = Raise e) \/
  (exists raw parsed,
      py_getitem_key event "body" = Ok raw /\ json_loads rt raw = Ok parsed /\
      py_get parsed "user_question" (PStr EmptyString) = Raise e) ->
  lambda_handler rt event context log = (Ok (Response 500 (error_body_of e)), log).
Proof.
  intros [Hraw | [(raw & Hraw & Hparsed) | (raw & parsed & Hraw & Hparsed & Hq)]];
    run_handler.
  - rewrite Hraw. reflexivity.
  - rewrite Hraw, Hparsed. reflexivity.
  - rewrite Hraw, Hparsed, Hq. reflexivity.
Qed.

Lemma unreadable_request_500_witness :
  lambda_handler (sample_runtime [] (Raise "unused") (Raise "unused"))
    (PDict [("headers", PDict [])]) PNone [] =
  (Ok (Response 500 (error_body_of "'body'")), []).
Proof.
  apply (unreadable_request_500 _ _ _ "'body'"). left. reflexivity.
Defined.

Lemma lambda_handler_try_calls (rt : runtime) (event : pyval) (log : list call) :
  match lambda_handler_try rt event log with
  | (Ok r, log') =>
      (statusCode r = 400 /\ log' = log) \/
      (exists n, (statusCode r = 500 \/ statusCode r = 404) /\
                 log' = log ++ [ScanCall TABLE_NAME n]) \/
      (exists n p, statusCode r = 200 /\
                   log' = log ++ [ScanCall TABLE_NAME n; InvokeModelCall MODEL_ID p])
  | (Raise _, log') => calls_made log log'
  end.
Proof.
  unfold lambda_handler_try, mbind. unfold lift at 1 2 3.
  destruct (py_getitem_key event "body") as [raw | e]; [| left; reflexivity].
  destruct (json_loads rt raw) as [parsed | e]; [| left; reflexivity].
  destruct (py_get parsed "user_question" (PStr EmptyString)) as [question | e];
    [| left; reflexivity].
  destruct (truthy question); cbn [negb]; [| left; split; reflexivity].
  unfold lift at 1.
  destruct (determine_incident_limit question) as [limit | e]; [| left; reflexivity].
  destruct (get_all_incidents_total rt TABLE_NAME limit log) as [incidents ->].
  destruct (is_dict_with incidents "error").
  - unfold lift, mret. destruct (json_dumps None incidents).
    + right; left. exists limit. split; [left; reflexivity | reflexivity].
    + right; left. exists limit. reflexivity.
  - destruct (truthy incidents); cbn [negb].
    + unfold lift at 1.
      destruct (generate_user_query_prompt incidents (str_value question))
        as [prompt | e]; [| right; left; exists limit; reflexivity].
      destruct (invoke_bedrock_logs rt prompt (log ++ [ScanCall TABLE_NAME limit]))
        as [text ->].
      rewrite <- app_assoc. cbn [app].
      unfold lift, mret. destruct (json_dumps None _).
      * right; right. eexists limit, _. split; reflexivity.
      * right; right. eexists limit, _. reflexivity.
    + right; left. exists limit. split; [right; reflexivity | reflexivity].
Qed.

(** X11. For every event the handler adds to the log nothing, one scan of
    the fixed table, or that scan followed by one call of the fixed model:
    it never calls the model without the scan and never repeats a call.
    A 400 answer comes with no call, a 404 answer with the scan alone and
    a 200 answer with the scan followed by the model call. *)
Theorem client_calls_discipline (rt : runtime) (event context : pyval) (log : list call) :
  exists r log',
    lambda_handler rt event context log = (Ok r, log') /\
    calls_made log log' /\
    (statusCode r = 400 -> log' = log) /\
    (statusCode r = 404 -> exists n, log' = log ++ [ScanCall TABLE_NAME n]) /\
    (statusCode r = 200 ->
     exists n p, log' = log ++ [ScanCall TABLE_NAME n; InvokeModelCall MODEL_ID p]).
Proof.
  pose proof (lambda_handler_try_calls rt event log) as Htry.
  unfold lambda_handler, try_except.
  destruct (lambda_handler_try rt event log) as [[r | e] log1].
  - exists r, log1. split; [reflexivity |].
    destruct Htry as [[Hs ->] | [(n & Hs & ->) | (n & p & Hs & ->)]].
    + split; [left; reflexivity |]. rewrite Hs.
      split; [| split]; intros H; [reflexivity | lia | lia].
    + split; [right; left; eauto |].
      split; [| split]; intros H; [lia | eauto | lia].
    + split; [right; right; eauto |]. rewrite Hs.
      split; [| split]; intros H; [lia | lia | eauto].
  - eexists _, log1. split; [reflexivity |]. split; [exact Htry |].
    cbn [statusCode]. split; [| split]; intros H; lia.
Qed.

Lemma client_calls_discipline_witness :
  exists r log',
    lambda_handler
      (sample_runtime [sample_question] (Ok (PDict [("Items", PList [])])) (Raise "unused"))
      (sample_event sample_question) PNone [] = (Ok r, log') /\
    statusCode r = 404 /\
    exists n, log' = [] ++ [ScanCall TABLE_NAME n].
Proof.
  destruct (client_calls_discipline
              (sample_runtime [sample_question] (Ok (PDict [("Items", PList [])]))
                 (Raise "unused"))
              (sample_event sample_question) PNone [])
    as (r & log' & Hrun & _ & _ & H404 & _).
  exists r, log'. split; [exact Hrun |].
  assert (Hs : statusCode r = 404).
  { vm_compute in Hrun. injection Hrun as <- _. reflexivity. }
  split; [exact Hs | exact (H404 Hs)].
Defined.

(** X12. When the scan raises nothing but the formatter cannot read what
    it returned, the exception reaches the handler's catch-all: the answer
    is 500 with the message of the exception, and the model is not
    called. *)
Theorem format_failure_500 (rt : runtime) (event context raw parsed resp incidents : pyval)
  (q e : string) (limit : Z) (log : list call) :
  py_getitem_key event "body" = Ok raw ->
  json_loads rt raw = Ok parsed ->
  py_get parsed "user_question" (PStr EmptyString) = Ok (PStr q) ->
  q <> EmptyString ->
  determine_incident_limit (PStr q) = Ok limit ->
  dynamodb_scan rt TABLE_NAME limit = Ok resp ->
  py_get resp "Items" (PList []) = Ok incidents ->
  is_dict_with incidents "error" = false ->
  truthy incidents = true ->
  format_incidents_for_prompt incidents = Raise e ->
  lambda_handler rt event context log =
  (Ok (Response 500 (error_body_of e)), log ++ [ScanCall TABLE_NAME limit]).
Proof.
  intros Hraw Hparsed Hq Hne Hlimit Hscan Hitems Hnoerr Htrue Hformat.
  unfold lambda_handler, lambda_handler_try, try_except, mbind.
  unfold lift at 1 2 3. rewrite Hraw, Hparsed, Hq, (truthy_question q Hne).
  cbn [negb]. unfold lift at 1. rewrite Hlimit.
  rewrite (get_all_incidents_success rt TABLE_NAME limit log resp _ Hscan Hitems).
  rewrite Hnoerr, Htrue. cbn [negb str_value]. unfold lift at 1.
  unfold generate_user_query_prompt. rewrite Hformat. reflexivity.
Qed.

Lemma format_failure_500_witness :
  lambda_handler
    (sample_runtime [sample_question] (Ok (PDict [("Items", PList [PStr "INC-1"])]))
       (Raise "unused"))
    (sample_event sample_question) PNone [] =
  (Ok (Response 500 (error_body_of "'str' object has no attribute 'get'")),
   [] ++ [ScanCall TABLE_NAME 2]).
Proof.
  apply (format_failure_500
           (sample_runtime [sample_question] (Ok (PDict [("Items", PList [PStr "INC-1"])]))
              (Raise "unused"))
           (sample_event sample_question) PNone
           (PStr (dumps_text sample_question)) sample_question
           (PDict [("Items", PList [PStr "INC-1"])]) (PList [PStr "INC-1"])
           "show the last 2 incidents");
    try reflexivity.
  discriminate.
Defined.

(** X13. A scan whose answer has no "Items" key counts as an empty
    result: the handler answers 404, not 500. *)
Theorem missing_items_404 (rt : runtime) (event context raw parsed : pyval)
  (d : list (string * pyval)) (q : string) (limit : Z) (log : list call) :
  py_getitem_key event "body" = Ok raw ->
  json_loads rt raw = Ok parsed ->
  py_get parsed "user_question" (PStr EmptyString) = Ok (PStr q) ->
  q <> EmptyString ->
  determine_incident_limit (PStr q) = Ok limit ->
  dynamodb_scan rt TABLE_NAME limit = Ok (PDict d) ->
  dict_lookup d "Items" = None ->
  lambda_handler rt event context log =
  (Ok (Response 404 (error_body "No incidents found")), log ++ [ScanCall TABLE_NAME limit]).
Proof.
  intros Hraw Hparsed Hq Hne Hlimit Hscan Hitems.
  unfold lambda_handler, lambda_handler_try, try_except, mbind.
  unfold lift at 1 2 3. rewrite Hraw, Hparsed, Hq, (truthy_question q Hne).
  cbn [negb]. unfold lift at 1. rewrite Hlimit.
  rewrite (get_all_incidents_success rt TABLE_NAME limit log (PDict d) (PList []) Hscan).
  - reflexivity.
  - cbn [py_get]. rewrite Hitems. reflexivity.
Qed.

Lemma missing_items_404_witness :
  lambda_handler
    (sample_runtime [sample_question] (Ok (PDict [("Count", PInt 0)])) (Raise "unused"))
    (sample_event sample_question) PNone [] =
  (Ok (Response 404 (error_body "No incidents found")), [] ++ [ScanCall TABLE_NAME 2]).
Proof.
  apply (missing_items_404
           (sample_runtime [sample_question] (Ok (PDict [("Count", PInt 0)])) (Raise "unused"))
           (sample_event sample_question) PNone
           (PStr (dumps_text sample_question)) sample_question
           [("Count", PInt 0)] "show the last 2 incidents");
    try reflexivity.
  discriminate.
Defined.



(** ** The text of the incident block *)

Lemma count_lf_append a b : count_lf (a +:+ b) = (count_lf a + count_lf b)%nat.
Proof.
  induction a as [| c a IH]; [reflexivity |].
  change (String c a +:+ b) with (String c (a +:+ b)). cbn [count_lf]. rewrite IH. lia.
Qed.

Lemma plain_ascii_append a b : plain_ascii (a +:+ b) = plain_ascii a && plain_ascii b.
Proof.
  induction a as [| c a IH]; [reflexivity |].
  change (String c a +:+ b) with (String c (a +:+ b)). cbn [plain_ascii].
  rewrite IH. apply andb_assoc.
Qed.

Lemma count_lf_concat sep l :
  count_lf (String.concat sep l) =
  (list_sum (map count_lf l) + Nat.pred (List.length l) * count_lf sep)%nat.
Proof.
  induction l as [| x l IH]; [reflexivity |].
  destruct l as [| y l].
  - cbn. lia.
  - change (String.concat sep (x :: y :: l)) with (x +:+ sep +:+ String.concat sep (y :: l)).
    rewrite !count_lf_append, IH. cbn [map list_sum fold_right List.length Nat.pred]. lia.
Qed.

Lemma plain_ascii_concat sep l :
  plain_ascii sep = true ->
  Forall (fun x => plain_ascii x = true) l ->
  plain_ascii (String.concat sep l) = true.
Proof.
  intros Hsep Hl. induction Hl as [| x l Hx Hl IH]; [reflexivity |].
  destruct l as [| y l]; [exact Hx |].
  change (String.concat sep (x :: y :: l)) with (x +:+ sep +:+ String.concat sep (y :: l)).
  rewrite !plain_ascii_append, Hx, Hsep, IH. reflexivity.
Qed.

Lemma escape_char_plain c :
  count_lf (escape_char c) = 0%nat /\ plain_ascii (escape_char c) = true.
Proof. destruct c as [[] [] [] [] [] [] [] []]; vm_compute; split; reflexivity. Qed.

(** An encoded string stays on its line and is printable ASCII, whatever
    the string. *)
Lemma encode_basestring_ascii_plain s :
  count_lf (encode_basestring_ascii s) = 0%nat /\
  plain_ascii (encode_basestring_ascii s) = true.
Proof.
  unfold encode_basestring_ascii. rewrite !count_lf_append, !plain_ascii_append.
  assert (H : count_lf (String.concat EmptyString (map escape_char (chars s))) = 0%nat /\
              plain_ascii (String.concat EmptyString (map escape_char (chars s))) = true).
  { split.
    - rewrite count_lf_concat. cbn [count_lf]. rewrite Nat.mul_0_r, Nat.add_0_r.
      induction (chars s) as [| c l IH]; [reflexivity |].
      cbn [map list_sum fold_right]. rewrite (proj1 (escape_char_plain c)). exact IH.
    - apply plain_ascii_concat; [reflexivity |].
      induction (chars s) as [| c l IH]; constructor;
        [exact (proj2 (escape_char_plain c)) | exact IH]. }
  destruct H as [-> ->]. split; reflexivity.
Qed.

Lemma render_field_plain (item : gmap string AttributeValue) lf :
  In lf FIELDS ->
  count_lf (render_field item lf) = 0%nat /\ plain_ascii (render_field item lf) = true.
Proof.
  intros Hin. unfold render_field.
  rewrite !count_lf_append, !plain_ascii_append.
  destruct (encode_basestring_ascii_plain (field_text item (snd lf))) as [-> ->].
  unfold FIELDS in Hin. simpl in Hin.
  repeat (destruct Hin as [<- | Hin]; [split; reflexivity |]). destruct Hin.
Qed.

Lemma render_record_plain (item : gmap string AttributeValue) :
  count_lf (render_record item) = 9%nat /\ plain_ascii (render_record item) = true.
Proof.
  unfold render_record. rewrite !count_lf_append, !plain_ascii_append. split.
  - rewrite count_lf_concat, length_map.
    assert (Hsum : list_sum (map count_lf (map (render_field item) FIELDS)) = 0%nat).
    { assert (Hall : Forall (fun lf => In lf FIELDS) FIELDS)
        by (apply List.Forall_forall; auto).
      induction Hall as [| lf l Hlf _ IH]; [reflexivity |].
      cbn [map list_sum fold_right]. rewrite (proj1 (render_field_plain item lf Hlf)).
      exact IH. }
    rewrite Hsum. reflexivity.
  - rewrite plain_ascii_concat; [reflexivity | reflexivity |].
    assert (Hall : Forall (fun lf => In lf FIELDS) FIELDS)
      by (apply List.Forall_forall; auto).
    induction Hall as [| lf l Hlf _ IH]; constructor;
      [exact (proj2 (render_field_plain item lf Hlf)) | exact IH].
Qed.

Lemma render_records_plain (items : list (gmap string AttributeValue)) :
  count_lf (render_records items) =
  match items with [] => 0%nat | _ => (10 * List.length items + 1)%nat end /\
  plain_ascii (render_records items) = true.
Proof.
  destruct items as [| item items]; [split; reflexivity |].
  unfold render_records. rewrite !count_lf_append, !plain_ascii_append. split.
  - rewrite count_lf_concat, length_map.
    assert (Hsum : forall l : list (gmap string AttributeValue),
               list_sum (map count_lf (map render_record l)) = (9 * List.length l)%nat).
    { induction l as [| x l IH]; [reflexivity |].
      cbn [map list_sum fold_right List.length].
      rewrite (proj1 (render_record_plain x)).
      change (fold_right Nat.add 0%nat (map count_lf (map render_record l)))
        with (list_sum (map count_lf (map render_record l))).
      rewrite IH. lia. }
    rewrite Hsum. cbn [List.length Nat.pred].
    change (count_lf "[") with 0%nat. change (count_lf "  ") with 0%nat.
    change (count_lf ("," +:+ LF +:+ "  ")) with 1%nat.
    change (count_lf LF) with 1%nat. change (count_lf "]") with 0%nat.
    lia.
  - rewrite plain_ascii_concat; [reflexivity | reflexivity |].
    induction (item :: items) as [| x l IH]; constructor;
      [exact (proj2 (render_record_plain x)) | exact IH].
Qed.

(** X15. The incident block has a fixed layout whatever the field values
    hold: for n > 0 items it has exactly 10 n + 1 line feeds (ten lines
    per item between the two bracket lines), for no item it is one line,
    and it consists of printable ASCII characters and line feeds only; a
    value cannot add a line or a raw character of its own. *)
Theorem incident_block_layout (items : list (gmap string AttributeValue)) :
  exists block,
    format_incidents_for_prompt (PList (map item_to_py items)) = Ok block /\
    count_lf block =
    match items with [] => 0%nat | _ => (10 * List.length items + 1)%nat end /\
    plain_ascii block = true.
Proof.
  exists (render_records items).
  split; [apply format_incidents_for_prompt_items | apply render_records_plain].
Qed.

(** ** The text sent to the model *)

Lemma one_line_append a b : one_line (a +:+ b) = one_line a && one_line b.
Proof.
  induction a as [| c a IH]; [reflexivity |].
  change (String c a +:+ b) with (String c (a +:+ b)). cbn [one_line].
  rewrite IH. apply andb_assoc.
Qed.

Lemma one_line_concat sep l :
  one_line sep = true ->
  Forall (fun x => one_line x = true) l ->
  one_line (String.concat sep l) = true.
Proof.
  intros Hsep Hl. induction Hl as [| x l Hx Hl IH]; [reflexivity |].
  destruct l as [| y l]; [exact Hx |].
  change (String.concat sep (x :: y :: l)) with (x +:+ sep +:+ String.concat sep (y :: l)).
  rewrite !one_line_append, Hx, Hsep, IH. reflexivity.
Qed.

Lemma escape_char_one_line c : one_line (escape_char c) = true.
Proof. destruct c as [[] [] [] [] [] [] [] []]; vm_compute; reflexivity. Qed.

Lemma encode_basestring_ascii_one_line s : one_line (encode_basestring_ascii s) = true.
Proof.
  unfold encode_basestring_ascii. rewrite !one_line_append.
  rewrite one_line_concat; [reflexivity | reflexivity |].
  induction (chars s) as [| c l IH]; constructor; [apply escape_char_one_line | exact IH].
Qed.

Lemma string_of_uint_nonempty_one_line d : one_line (NilEmpty.string_of_uint d) = true.
Proof. induction d; cbn [NilEmpty.string_of_uint one_line]; try rewrite IHd; reflexivity. Qed.

Lemma string_of_uint_one_line d : one_line (NilZero.string_of_uint d) = true.
Proof.
  unfold NilZero.string_of_uint.
  destruct d; try reflexivity; apply string_of_uint_nonempty_one_line.
Qed.

Lemma decimal_one_line z : one_line (decimal z) = true.
Proof.
  unfold decimal, NilZero.string_of_int. destruct (Z.to_int z) as [d | d].
  - apply string_of_uint_one_line.
  - cbn [one_line]. rewrite string_of_uint_one_line. reflexivity.
Qed.

(** Without [indent], the encoder writes one line of printable ASCII. *)
Lemma iterencode_one_line v :
  floats_one_line v = true ->
  forall level out, iterencode None level v = Ok out -> one_line out = true.
Proof.
  induction v as [| [] | | | | | l IH | d IH] using pyval_nested_ind;
    intros Hv level out; try (intros [= <-]; reflexivity); try discriminate.
  - intros [= <-]. apply decimal_one_line.
  - intros [= <-]. exact Hv.
  - intros [= <-]. apply encode_basestring_ascii_one_line.
  - destruct l as [| x l]; [intros [= <-]; reflexivity |].
    rewrite iterencode_list.
    destruct (encode_items None level (x :: l)) as [chunks |] eqn:Hchunks; [| discriminate].
    intros [= <-]. cbn [opening closing item_separator].
    rewrite !one_line_append. rewrite one_line_concat; [reflexivity | reflexivity |].
    cbn [floats_one_line] in Hv. clear - IH Hv Hchunks.
    revert chunks Hchunks. induction IH as [| y r Hy _ IHr]; intros chunks.
    + intros [= <-]. constructor.
    + cbn [forallb] in Hv. apply andb_true_iff in Hv as [Hy' Hr].
      cbn [encode_items]. fold (encode_items None level).
      destruct (iterencode None (S level) y) as [chunk |] eqn:Hchunk; [| discriminate].
      cbn [rbind].
      destruct (encode_items None level r) as [rest |] eqn:Hrest; [| discriminate].
      intros [= <-]. constructor; [exact (Hy Hy' _ _ Hchunk) | exact (IHr Hr rest eq_refl)].
  - destruct d as [| kv d]; [intros [= <-]; reflexivity |].
    rewrite iterencode_dict.
    destruct (encode_entries None level (kv :: d)) as [chunks |] eqn:Hchunks; [| discriminate].
    intros [= <-]. cbn [opening closing item_separator].
    rewrite !one_line_append. rewrite one_line_concat; [reflexivity | reflexivity |].
    cbn [floats_one_line] in Hv. clear - IH Hv Hchunks.
    revert chunks Hchunks. induction IH as [| [k y] r Hy _ IHr]; intros chunks.
    + intros [= <-]. constructor.
    + cbn [forallb snd] in Hv. apply andb_true_iff in Hv as [Hy' Hr].
      cbn [encode_entries]. fold (encode_entries None level).
      destruct (iterencode None (S level) y) as [chunk |] eqn:Hchunk; [| discriminate].
      cbn [rbind].
      destruct (encode_entries None level r) as [rest |] eqn:Hrest; [| discriminate].
      intros [= <-]. constructor; [| exact (IHr Hr rest eq_refl)].
      rewrite !one_line_append, encode_basestring_ascii_one_line.
      cbn [snd] in Hy. rewrite (Hy Hy' _ _ Hchunk). reflexivity.
Qed.

(** X16. For every prompt, the request body sent to the model is one line
    of printable ASCII: line feeds, quotes and non-ASCII characters of the
    incident block and of the question reach the model as JSON escapes
    only. *)
Theorem model_payload_one_line (rt : runtime) (prompt : string) (log : list call) :
  exists v payload,
    invoke_bedrock rt prompt log = (Ok v, log ++ [InvokeModelCall MODEL_ID payload]) /\
    one_line payload = true.
Proof.
  destruct (invoke_bedrock_logs rt prompt log) as [v Hv].
  exists v, (dumps_text (bedrock_payload prompt)). split; [exact Hv |].
  apply (iterencode_one_line (bedrock_payload prompt) eq_refl 0%nat).
  apply bedrock_payload_dumps.
Qed.

(** ** Writing a number and reading it back *)








(** ** The prompt *)

(** X17. For every list of items and every question the prompt is built,
    and the question enters it as it is: the prompt has the line feeds of
    the incident block, those of the question, and six of its own. *)
Theorem prompt_layout (items : list (gmap string AttributeValue)) (q : string) :
  exists prompt,
    generate_user_query_prompt (PList (map item_to_py items)) q = Ok prompt /\
    count_lf prompt =
    (match items with [] => 0 | _ => 10 * List.length items + 1 end
     + count_lf q + 6)%nat.
Proof.
  unfold generate_user_query_prompt. rewrite format_incidents_for_prompt_items.
  eexists. split; [reflexivity |].
  rewrite !count_lf_append, (proj1 (render_records_plain items)).
  change (count_lf LF) with 1%nat.
  change (count_lf "User Question: ") with 0%nat.
  change (count_lf "Please provide a clear, professional response.") with 0%nat.
  change (count_lf "You are an AI assistant helping with incident management. Below are the most recent incidents:") with 0%nat.
  lia.
Qed.
